(** * Verification of the chat frontend of DemoManual (RagWithScraper)

    Shallow embedding of
    - [frontend/app/api/chat/route.ts]: the [POST] handler of the chat endpoint,
      which forwards the question to the backend [/generate] and reshapes its reply;
    - the chat page ([ChatPage]): [getConfidenceColor], [handleSubmit] and the
      conditions under which the scores and references sections are rendered. *)

From Stdlib Require Import String Ascii List ZArith QArith Bool Lia Lqa.
Import ListNotations.
Set Warnings "-register-all".
Open Scope string_scope.

(** ** JavaScript values as they come out of [JSON.parse] *)

(** A JavaScript number: a finite double (a rational), an infinity or NaN.
    [JSON.parse] gives an infinity for a literal out of the double range,
    such as [1e400]. *)
Inductive jsnum : Type :=
  | NFin (q : Q)
  | NPosInf
  | NNegInf
  | NNaN.

Inductive jval : Type :=
  | JUndef
  | JNull
  | JBool (b : bool)
  | JNum (n : jsnum)
  | JStr (s : string)
  | JArr (xs : list jval)
  | JObj (kvs : list (string * jval)).

(** Property lookup on an object: [JSON.parse] keeps the last binding of a
    repeated key, so the last binding wins. *)
Fixpoint obj_get (kvs : list (string * jval)) (k : string) : option jval :=
  match kvs with
  | [] => None
  | (k', v) :: rest =>
      match obj_get rest k with
      | Some w => Some w
      | None => if String.eqb k k' then Some v else None
      end
  end.

(** [v.k] on a value that is not [null] or [undefined]: an object answers with
    its binding; the primitives and arrays have no own property of the names
    used here, so the result is [undefined]. *)
Definition get_prop (v : jval) (k : string) : jval :=
  match v with
  | JObj kvs => match obj_get kvs k with Some w => w | None => JUndef end
  | _ => JUndef
  end.

Definition is_nullish (v : jval) : bool :=
  match v with JUndef | JNull => true | _ => false end.

(** [v?.k] *)
Definition opt_chain (v : jval) (k : string) : jval :=
  if is_nullish v then JUndef else get_prop v k.

(** [v.k] where [v] being [null] or [undefined] throws a [TypeError]. *)
Definition get_prop_strict (v : jval) (k : string) : option jval :=
  if is_nullish v then None else Some (get_prop v k).

Definition truthy (v : jval) : bool :=
  match v with
  | JUndef | JNull => false
  | JBool b => b
  | JNum (NFin q) => negb (Qeq_bool q 0)
  | JNum NNaN => false
  | JNum (NPosInf | NNegInf) => true
  | JStr s => negb (String.eqb s "")
  | JArr _ | JObj _ => true
  end.

(** [a || b] *)
Definition js_or (a b : jval) : jval := if truthy a then a else b.

(** ** [String.prototype.split] on a one-character separator, and [Array.pop] *)

Fixpoint js_split (c : ascii) (s : string) : list string :=
  match s with
  | EmptyString => [EmptyString]
  | String a rest =>
      let parts := js_split c rest in
      if Ascii.eqb a c then EmptyString :: parts
      else match parts with
           | p :: ps => String a p :: ps
           | [] => [String a EmptyString]
           end
  end.

(** [pop] returns the last element, [undefined] on an empty array. *)
Fixpoint js_pop (l : list string) : option string :=
  match l with
  | [] => None
  | [x] => Some x
  | _ :: rest => js_pop rest
  end.

Definition slash : ascii := "/"%char.

(** [url.split('/').pop() || url] *)
Definition page_title (url : string) : string :=
  match js_pop (js_split slash url) with
  | Some t => if String.eqb t "" then url else t
  | None => url
  end.

(** ** The route [POST /api/chat] *)

(** [data.references.map((url: string) => ({page_url: url, page_title: ...}))] *)
Definition transform_ref (url : string) : jval :=
  JObj [("page_url", JStr url); ("page_title", JStr (page_title url))].

(** The callback calls [url.split]: an element that is not a string throws. *)
Fixpoint map_refs (xs : list jval) : option (list jval) :=
  match xs with
  | [] => Some []
  | JStr u :: rest =>
      match map_refs rest with
      | Some ys => Some (transform_ref u :: ys)
      | None => None
      end
  | _ :: _ => None
  end.

(** [.map] on a value that is not an array throws. *)
Definition map_references (v : jval) : option (list jval) :=
  match v with
  | JArr xs => map_refs xs
  | _ => None
  end.

Definition default_scores : jval :=
  JObj [("factual_accuracy", JNum (NFin 0)); ("relevance", JNum (NFin 0));
        ("completeness", JNum (NFin 0)); ("context_usage", JNum (NFin 0))].

(** [data.evaluation?.llm_evaluation?.scores] *)
Definition llm_scores (data : jval) : jval :=
  opt_chain (opt_chain (get_prop data "evaluation") "llm_evaluation") "scores".

(** [data.evaluation?.llm_evaluation?.scores || { ...defaults }] *)
Definition scores_of (data : jval) : jval := js_or (llm_scores data) default_scores.

(** The object literal handed to [NextResponse.json]; its fields are evaluated
    in order and the first throw aborts it. *)
Definition build_body (data : jval) : option jval :=
  match get_prop_strict data "answer" with
  | None => None
  | Some answer =>
      match map_references (get_prop data "references") with
      | None => None
      | Some refs =>
          Some (JObj [("answer", answer); ("references", JArr refs);
                      ("scores", scores_of data)])
      end
  end.

Record response := mk_response { status : Z; body : jval }.

Definition error_response : response :=
  mk_response 500 (JObj [("error", JStr "Failed to process request")]).

(** What [fetch(`${API_URL}/generate`, ...)] produces: it throws, or it gives a
    response with a status and a body that [response.json()] parses ([None]
    when the body is not JSON, where [json()] throws). *)
Inductive backend_result : Type :=
  | BThrows
  | BResp (st : Z) (json : option jval).

Definition resp_ok (st : Z) : bool := ((200 <=? st) && (st <=? 299))%Z.

(** [POST request]: [req] is what [request.json()] parses ([None] when it
    throws); [backend] is the backend's answer to the question sent. *)
Definition chat_POST (req : option jval) (backend : jval -> backend_result) : response :=
  match req with
  | None => error_response
  | Some rb =>
      (* const { question } = await request.json(); *)
      match get_prop_strict rb "question" with
      | None => error_response
      | Some question =>
          match backend question with
          | BThrows => error_response
          | BResp st js =>
              if negb (resp_ok st) then error_response
              else match js with
                   | None => error_response
                   | Some data =>
                       match build_body data with
                       | None => error_response
                       | Some b => mk_response 200 b
                       end
                   end
          end
      end
  end.

(** ** The chat page *)

(** [x > c] and [x < c] for a finite constant [c]; every comparison with NaN
    is false. *)
Definition js_gt (x : jsnum) (c : Q) : bool :=
  match x with
  | NFin q => negb (Qle_bool q c)
  | NPosInf => true
  | NNegInf | NNaN => false
  end.

Definition js_lt (x : jsnum) (c : Q) : bool :=
  match x with
  | NFin q => negb (Qle_bool c q)
  | NNegInf => true
  | NPosInf | NNaN => false
  end.

Definition green_class : string := "bg-green-100 text-green-800".
Definition red_class : string := "bg-red-100 text-red-800".
Definition yellow_class : string := "bg-yellow-100 text-yellow-800".

Definition getConfidenceColor (score : jsnum) : string :=
  if js_gt score 8 then green_class
  else if js_lt score 5 then red_class
  else yellow_class.

(** [String.prototype.trim]: strings are sequences of code units, here the
    units 0..255; the JavaScript white space and line terminators among them
    are TAB, LF, VT, FF, CR, SPACE and NBSP. *)
Definition is_js_ws (a : ascii) : bool :=
  let n := nat_of_ascii a in
  orb (andb (Nat.leb 9 n) (Nat.leb n 13)) (orb (Nat.eqb n 32) (Nat.eqb n 160)).

Fixpoint trim_start (s : string) : string :=
  match s with
  | EmptyString => EmptyString
  | String a rest => if is_js_ws a then trim_start rest else s
  end.

Fixpoint trim_end (s : string) : string :=
  match s with
  | EmptyString => EmptyString
  | String a rest =>
      let r := trim_end rest in
      if andb (String.eqb r "") (is_js_ws a) then EmptyString else String a r
  end.

Definition js_trim (s : string) : string := trim_end (trim_start s).

(** [toLowerCase] on the code units 0..255: A-Z and the Latin-1 capitals
    (except the multiplication sign) move up by 32. *)
Definition to_lower_char (a : ascii) : ascii :=
  let n := nat_of_ascii a in
  if orb (andb (Nat.leb 65 n) (Nat.leb n 90))
         (andb (andb (Nat.leb 192 n) (Nat.leb n 222)) (negb (Nat.eqb n 215)))
  then ascii_of_nat (n + 32) else a.

Fixpoint to_lower (s : string) : string :=
  match s with
  | EmptyString => EmptyString
  | String a rest => String (to_lower_char a) (to_lower rest)
  end.

Definition space : ascii := " "%char.

(** [question.toLowerCase().split(' ').slice(0, 3).join(' ')] *)
Definition questionTopic (question : string) : string :=
  String.concat " " (firstn 3 (js_split space (to_lower question))).

Inductive msg_type : Type := MUser | MAgent.

(** [interface Message]; an optional field that the literal leaves out is
    [None]. Message ids are [Date.now()]-based numbers, kept as numbers. *)
Record message := mk_message {
  id : Z;
  mtype : msg_type;
  text : string;
  references : option jval;
  scores : option jval
}.

Definition field (o : option jval) : jval :=
  match o with Some v => v | None => JUndef end.

(** The component state, plus the bodies of the requests sent to [/api/chat]. *)
Record chat_state := mk_chat_state {
  question : string;
  loading : bool;
  messages : list message;
  showReferences : list (Z * bool);
  sent : list jval
}.

Definition apology : string :=
  "I apologize, but I encountered an error while processing your request. Please try asking your question again.".

Section ChatPage.

(** [Number.prototype.toString] of a finite number, used when [data.answer]
    is one. *)
Variable num_to_string : Q -> string.

(** The template literal [`${v}`], [None] when it throws. An object goes
    through [ToPrimitive]: a parsed object with an own [toString] key (never
    callable) falls to [valueOf], whose result is no primitive, and the
    conversion throws a [TypeError]; any other object gives
    "[object Object]". An array is joined with ",", [null] and [undefined]
    elements giving "". *)
Fixpoint js_to_string (v : jval) : option string :=
  match v with
  | JUndef => Some "undefined"
  | JNull => Some "null"
  | JBool b => Some (if b then "true" else "false")
  | JNum (NFin q) => Some (num_to_string q)
  | JNum NPosInf => Some "Infinity"
  | JNum NNegInf => Some "-Infinity"
  | JNum NNaN => Some "NaN"
  | JStr s => Some s
  | JArr xs =>
      option_map (String.concat ",")
        ((fix go (l : list jval) : option (list string) :=
            match l with
            | [] => Some []
            | x :: r =>
                match (if is_nullish x then Some "" else js_to_string x), go r with
                | Some a, Some b => Some (a :: b)
                | _, _ => None
                end
            end) xs)
  | JObj kvs =>
      match obj_get kvs "toString" with
      | Some _ => None
      | None => Some "[object Object]"
      end
  end.

Definition nl : string := String (ascii_of_nat 10) EmptyString.

(** The [try] block after the fetch: [None] when it throws. [now] is the
    [Date.now()] read after the awaited calls (line 117). *)
Definition agent_message (question0 : string) (now : Z) (res : backend_result)
    : option message :=
  match res with
  | BThrows => None
  | BResp st js =>
      if negb (resp_ok st) then None
      else match js with
           | None => None
           | Some data =>
               match get_prop_strict data "answer" with
               | None => None
               | Some answer =>
                   match js_to_string answer with
                   | None => None
                   | Some a =>
                       Some (mk_message (now + 1) MAgent
                               (questionTopic question0 ++ ". Here's what I found:" ++ nl ++ nl
                                ++ a)
                               (Some (get_prop data "references"))
                               (Some (get_prop data "scores")))
                   end
               end
           end
  end.

Definition error_message (now : Z) : message :=
  mk_message (now + 1) MAgent apology None None.

(** [handleSubmit]: [api] answers the [fetch('/api/chat', ...)] call for a
    request body; [now] is the [Date.now()] of line 95, taken before the
    request, and [later] the one taken after it (line 117 or 132). *)
Definition handleSubmit (s : chat_state) (api : jval -> backend_result) (now later : Z)
    : chat_state :=
  if String.eqb (js_trim (question s)) "" then s
  else
    let q := question s in
    let userMessage := mk_message now MUser q None None in
    let reqbody := JObj [("question", JStr q)] in
    let msgs := (messages s ++ [userMessage])%list in
    let sent' := (sent s ++ [reqbody])%list in
    match agent_message q later (api reqbody) with
    | Some m =>
        mk_chat_state "" false (msgs ++ [m])%list (showReferences s ++ [(id m, false)])%list sent'
    | None =>
        mk_chat_state "" false (msgs ++ [error_message later])%list (showReferences s) sent'
    end.

End ChatPage.

(** [message.type === 'agent' && message.scores && ...] *)
Definition shows_scores (m : message) : bool :=
  match mtype m with
  | MAgent => truthy (field (scores m))
  | MUser => false
  end.

Definition js_length_pos (v : jval) : bool :=
  match v with
  | JArr xs => Nat.ltb 0 (length xs)
  | JStr s => Nat.ltb 0 (String.length s)
  | _ => false
  end.

(** [message.type === 'agent' && message.references && message.references.length > 0] *)
Definition shows_references (m : message) : bool :=
  match mtype m with
  | MAgent => truthy (field (references m)) && js_length_pos (field (references m))
  | MUser => false
  end.

(** Whether [c] occurs in [s]: "the substring after the last '/'" of [url] is
    the [s] of a decomposition [url = p ++ "/" ++ s] where [s] has no '/'. *)
Fixpoint has_char (c : ascii) (s : string) : bool :=
  match s with
  | EmptyString => false
  | String a rest => Ascii.eqb a c || has_char c rest
  end.

(** A string made only of JavaScript white space (the empty string included). *)
Fixpoint all_ws (s : string) : bool :=
  match s with
  | EmptyString => true
  | String a rest => is_js_ws a && all_ws rest
  end.

(** ** The loading indicator *)

Inductive stage : Type := Understanding | Searching | Generating.

(** [interface LoadingState]; [stage: null] is [None]. *)
Record LoadingState := mk_loading { lstage : option stage; dots : nat }.

Definition loading_idle : LoadingState := mk_loading None 0.

Definition stages : list stage := [Understanding; Searching; Generating].

(** One run of the [setInterval] callback of the loading effect: [stageIndex]
    is the effect's local counter, [prev] the current [loadingState]. *)
Definition loading_tick (stageIndex : nat) (prev : LoadingState) : nat * LoadingState :=
  let newDots := (dots prev + 1) mod 4 in
  let stageIndex' :=
    if Nat.eqb newDots 0 then (stageIndex + 1) mod length stages else stageIndex in
  (stageIndex', mk_loading (Some (nth stageIndex' stages Understanding)) newDots).

(** [n] runs of the callback, from [stageIndex = 0] as the effect sets it. *)
Fixpoint loading_ticks (n : nat) (stageIndex : nat) (ls : LoadingState)
    : nat * LoadingState :=
  match n with
  | O => (stageIndex, ls)
  | S n' => let (i, l) := loading_tick stageIndex ls in loading_ticks n' i l
  end.

Definition stage_message (s : stage) : string :=
  match s with
  | Understanding => "Understanding your query"
  | Searching => "Searching through knowledge base"
  | Generating => "Generating helpful response"
  end.

(** ['.'.repeat(n)] *)
Fixpoint repeat_dot (n : nat) : string :=
  match n with
  | O => EmptyString
  | S n' => String "."%char (repeat_dot n')
  end.

Definition getLoadingMessage (ls : LoadingState) : string :=
  match lstage ls with
  | None => ""
  | Some s => stage_message s ++ repeat_dot (dots ls)
  end.

(** ** The references toggle *)

(** [showReferences] is an object keyed by message id, extended with
    [{...prev, [id]: v}]: the last binding of an id wins. *)
Fixpoint show_lookup (sr : list (Z * bool)) (k : Z) : option bool :=
  match sr with
  | [] => None
  | (k', v) :: rest =>
      match show_lookup rest k with
      | Some w => Some w
      | None => if Z.eqb k k' then Some v else None
      end
  end.

(** [showReferences[message.id]] read as a condition ([undefined] is false). *)
Definition references_shown (sr : list (Z * bool)) (k : Z) : bool :=
  match show_lookup sr k with Some b => b | None => false end.

(** The [onClick] of the Show/Hide References button. *)
Definition toggleReferences (sr : list (Z * bool)) (k : Z) : list (Z * bool) :=
  (sr ++ [(k, negb (references_shown sr k))])%list.

(** [key.replace(/_/g, ' ')], the label of a score. *)
Fixpoint score_label (key : string) : string :=
  match key with
  | EmptyString => EmptyString
  | String a rest =>
      String (if Ascii.eqb a "_"%char then " "%char else a) (score_label rest)
  end.

(** ** The page talking to the route *)

(** [JSON.stringify] followed by [JSON.parse], as between [NextResponse.json]
    and [res.json()]: an [undefined] field of an object is dropped, an
    [undefined] element of an array becomes [null], and a number that is not
    finite becomes [null]. *)
Definition is_undef (v : jval) : bool := match v with JUndef => true | _ => false end.

Fixpoint json_rt (v : jval) : jval :=
  match v with
  | JArr xs => JArr (map (fun x => if is_undef x then JNull else json_rt x) xs)
  | JNum (NFin _) => v
  | JNum _ => JNull
  | JObj kvs =>
      JObj ((fix go (l : list (string * jval)) : list (string * jval) :=
               match l with
               | [] => []
               | (k, x) :: r => if is_undef x then go r else (k, json_rt x) :: go r
               end) kvs)
  | _ => v
  end.

(** The page's [fetch('/api/chat', ...)] served by [chat_POST] with [backend]
    behind it; the page's request body always parses. *)
Definition page_api (backend : jval -> backend_result) : jval -> backend_result :=
  fun reqbody =>
    let r := chat_POST (Some reqbody) backend in
    BResp (status r) (Some (json_rt (body r))).

(** The message the page appends when the route answers with [success_body]
    and the answer converts to the text [a]. *)
Definition e2e_agent_message (q : string) (later : Z) (a : string)
    (data : jval) (urls : list string) : message :=
  mk_message (later + 1) MAgent
    (questionTopic q ++ ". Here's what I found:" ++ nl ++ nl
     ++ a)
    (Some (JArr (map transform_ref urls))) (Some (json_rt (scores_of data))).

(** ** Sample inputs *)

Definition sample_request : option jval :=
  Some (JObj [("question", JStr "What is your return policy?")]).

(** A backend that answers every question with status 200 and [data]. *)
Definition backend_const (data : jval) : jval -> backend_result :=
  fun _ => BResp 200 (Some data).

Definition returns_url : string := "https://example.com/faq/returns".

Definition data_no_evaluation : jval :=
  JObj [("answer", JStr "Returns accepted within 30 days.");
        ("references", JArr [JStr returns_url])].

Definition data_with_scores (fa : Q) : jval :=
  JObj [("answer", JStr "Returns accepted within 30 days.");
        ("references", JArr [JStr returns_url; JStr returns_url]);
        ("evaluation",
          JObj [("llm_evaluation",
                  JObj [("scores",
                          JObj [("factual_accuracy", JNum (NFin fa)); ("relevance", JNum (NFin 9));
                                ("completeness", JNum (NFin 8)); ("context_usage", JNum (NFin 7))])])])].

(** A reply whose [answer] is an object with its own [toString] key. *)
Definition data_unprintable_answer : jval :=
  JObj [("answer", JObj [("toString", JNum (NFin 1))]); ("references", JArr [])].

Example page_title_returns : page_title returns_url = "returns".
Proof. reflexivity. Qed.

Example page_title_trailing_slash : page_title "https://example.com/" = "https://example.com/".
Proof. reflexivity. Qed.

Example page_title_no_slash : page_title "returns" = "returns".
Proof. reflexivity. Qed.

Example post_no_evaluation :
  chat_POST sample_request (backend_const data_no_evaluation)
  = mk_response 200 (JObj [("answer", JStr "Returns accepted within 30 days.");
                           ("references", JArr [transform_ref returns_url]);
                           ("scores", default_scores)]).
Proof. reflexivity. Qed.

Example post_bad_references :
  chat_POST sample_request (backend_const (JObj [("answer", JStr "a")])) = error_response.
Proof. reflexivity. Qed.

(** ** Lemmas on the route *)

Lemma map_refs_some xs ys :
  map_refs xs = Some ys -> exists urls, xs = map JStr urls /\ ys = map transform_ref urls.
Proof.
  revert ys; induction xs as [|x xs IH]; intros ys H.
  - injection H as <-. exists []. split; reflexivity.
  - destruct x; try discriminate. simpl in H.
    destruct (map_refs xs) as [zs|] eqn:E; [|discriminate].
    injection H as <-. destruct (IH zs eq_refl) as (urls & -> & ->).
    exists (s :: urls). split; reflexivity.
Qed.

Lemma map_refs_strings urls : map_refs (map JStr urls) = Some (map transform_ref urls).
Proof. induction urls as [|u urls IH]; simpl; [reflexivity|now rewrite IH]. Qed.

Definition success_body (data : jval) (urls : list string) : jval :=
  JObj [("answer", get_prop data "answer");
        ("references", JArr (map transform_ref urls));
        ("scores", scores_of data)].

Lemma build_body_some data b :
  build_body data = Some b ->
  is_nullish data = false /\
  exists urls, get_prop data "references" = JArr (map JStr urls) /\ b = success_body data urls.
Proof.
  unfold build_body, get_prop_strict.
  destruct (is_nullish data) eqn:N; [discriminate|].
  unfold map_references.
  destruct (get_prop data "references") eqn:R; try discriminate.
  destruct (map_refs xs) as [ys|] eqn:M; [|discriminate].
  intros H; injection H as <-. split; [reflexivity|].
  destruct (map_refs_some _ _ M) as (urls & -> & ->).
  exists urls. split; reflexivity.
Qed.

(** Every answer of status 200 comes from an ok backend reply whose body is an
    object with an array of string references, and has the shape [success_body]. *)
Lemma chat_POST_success req backend :
  status (chat_POST req backend) = 200%Z ->
  exists q st data urls,
    backend q = BResp st (Some data) /\ resp_ok st = true /\
    is_nullish data = false /\
    get_prop data "references" = JArr (map JStr urls) /\
    chat_POST req backend = mk_response 200 (success_body data urls).
Proof.
  unfold chat_POST.
  destruct req as [rb|]; [|discriminate].
  destruct (get_prop_strict rb "question") as [q|]; [|discriminate].
  destruct (backend q) as [|st js] eqn:B; [discriminate|].
  destruct (resp_ok st) eqn:OK; [|discriminate]. simpl.
  destruct js as [data|]; [|discriminate].
  destruct (build_body data) as [b|] eqn:BB; [|discriminate].
  intros _. destruct (build_body_some _ _ BB) as (N & urls & R & ->).
  exists q, st, data, urls. repeat split; assumption.
Qed.

Lemma chat_POST_error_or_success req backend :
  chat_POST req backend = error_response \/ status (chat_POST req backend) = 200%Z.
Proof.
  unfold chat_POST.
  destruct req as [rb|]; [|now left].
  destruct (get_prop_strict rb "question") as [q|]; [|now left].
  destruct (backend q) as [|st js]; [now left|].
  destruct (negb (resp_ok st)); [now left|].
  destruct js as [data|]; [|now left].
  destruct (build_body data); [now right|now left].
Qed.

(** A status 200 for a request: the reply to the request's own question was
    ok, parsed to a non-null value with string references, and the answer is
    [success_body] of it. *)
Lemma chat_POST_reply_success rb q backend st data :
  get_prop_strict rb "question" = Some q ->
  backend q = BResp st (Some data) ->
  status (chat_POST (Some rb) backend) = 200%Z ->
  exists urls,
    resp_ok st = true /\ is_nullish data = false /\
    get_prop data "references" = JArr (map JStr urls) /\
    chat_POST (Some rb) backend = mk_response 200 (success_body data urls).
Proof.
  intros Q B. unfold chat_POST. rewrite Q, B.
  destruct (resp_ok st) eqn:OK; [|discriminate]. simpl.
  destruct (build_body data) as [b|] eqn:BB; [|discriminate].
  intros _. destruct (build_body_some _ _ BB) as (N & urls & R & ->).
  exists urls. repeat split; assumption.
Qed.

(** ** Claims on the route *)

(** C1 (counterexample): the backend reply carries no [evaluation] field, and
    the [scores] object of the answer has no [semantic_similarity] field. *)
Lemma C1_counterexample :
  status (chat_POST sample_request (backend_const data_no_evaluation)) = 200%Z /\
  is_nullish (get_prop data_no_evaluation "evaluation") = true /\
  get_prop (get_prop (body (chat_POST sample_request (backend_const data_no_evaluation)))
              "scores") "semantic_similarity" = JUndef.
Proof. split; [|split]; reflexivity. Qed.

(** C1 (amended): whenever the endpoint answers a request with status 200
    and the backend's reply to that request's question has no truthy
    [evaluation.llm_evaluation.scores] (missing or otherwise falsy), the
    [scores] of the answer is the default object: the four fields
    [factual_accuracy], [relevance], [completeness] and [context_usage] set to
    0, and no [semantic_similarity] field. *)
Theorem C1_missing_scores_default rb q backend st data :
  get_prop_strict rb "question" = Some q ->
  backend q = BResp st (Some data) ->
  status (chat_POST (Some rb) backend) = 200%Z ->
  truthy (llm_scores data) = false ->
  let sc := get_prop (body (chat_POST (Some rb) backend)) "scores" in
  sc = default_scores /\
  get_prop sc "factual_accuracy" = JNum (NFin 0) /\ get_prop sc "relevance" = JNum (NFin 0) /\
  get_prop sc "completeness" = JNum (NFin 0) /\ get_prop sc "context_usage" = JNum (NFin 0) /\
  get_prop sc "semantic_similarity" = JUndef.
Proof.
  intros Q B H F.
  destruct (chat_POST_reply_success rb q backend st data Q B H) as (urls & _ & _ & _ & E).
  cbv zeta. rewrite E.
  assert (S : get_prop (body (mk_response 200 (success_body data urls))) "scores"
              = default_scores).
  { simpl. unfold scores_of, js_or. now rewrite F. }
  rewrite S. repeat split.
Qed.

Lemma C1_witness :
  get_prop_strict (JObj [("question", JStr "What is your return policy?")]) "question"
    = Some (JStr "What is your return policy?") /\
  backend_const data_no_evaluation (JStr "What is your return policy?")
    = BResp 200 (Some data_no_evaluation) /\
  status (chat_POST sample_request (backend_const data_no_evaluation)) = 200%Z /\
  truthy (llm_scores data_no_evaluation) = false /\
  (let sc := get_prop (body (chat_POST sample_request (backend_const data_no_evaluation)))
               "scores" in
   sc = default_scores /\
   get_prop sc "factual_accuracy" = JNum (NFin 0) /\ get_prop sc "relevance" = JNum (NFin 0) /\
   get_prop sc "completeness" = JNum (NFin 0) /\ get_prop sc "context_usage" = JNum (NFin 0) /\
   get_prop sc "semantic_similarity" = JUndef).
Proof.
  split; [reflexivity|]. split; [reflexivity|]. split; [reflexivity|]. split; [reflexivity|].
  apply (C1_missing_scores_default (JObj [("question", JStr "What is your return policy?")])
           (JStr "What is your return policy?") (backend_const data_no_evaluation) 200
           data_no_evaluation); reflexivity.
Defined.

(** C2 (counterexample): on a successful backend reply the answer has no
    [evaluation] field (the scores sit at the top level under [scores]), and
    its references are objects, not the URL strings. *)
Lemma C2_counterexample :
  let r := chat_POST sample_request (backend_const (data_with_scores 9)) in
  status r = 200%Z /\
  get_prop (body r) "evaluation" = JUndef /\
  get_prop (body r) "scores" <> JUndef /\
  get_prop (body r) "references" <> JArr [JStr returns_url; JStr returns_url].
Proof. cbv zeta. split; [|split; [|split]]; [reflexivity|reflexivity|discriminate|discriminate]. Qed.

(** C2 (amended): the endpoint answers either with status 500 and
    [{error: 'Failed to process request'}], or with status 200 and
    [{answer: data.answer, references: [{page_url, page_title}...], scores}]
    built from an ok backend reply whose [references] is an array of strings;
    and it does answer the latter for every request with a [question] whose
    backend reply is ok, parses to an object, and has such references. *)
Theorem C2_response_shape :
  (forall req backend,
     chat_POST req backend = error_response \/
     exists q st data urls,
       backend q = BResp st (Some data) /\ resp_ok st = true /\
       get_prop data "references" = JArr (map JStr urls) /\
       chat_POST req backend =
         mk_response 200 (JObj [("answer", get_prop data "answer");
                                ("references", JArr (map transform_ref urls));
                                ("scores", scores_of data)])) /\
  (forall rb q backend st data urls,
     get_prop_strict rb "question" = Some q ->
     backend q = BResp st (Some data) -> resp_ok st = true ->
     is_nullish data = false ->
     get_prop data "references" = JArr (map JStr urls) ->
     chat_POST (Some rb) backend =
       mk_response 200 (JObj [("answer", get_prop data "answer");
                              ("references", JArr (map transform_ref urls));
                              ("scores", scores_of data)])).
Proof.
  split.
  - intros req backend.
    destruct (chat_POST_error_or_success req backend) as [E|H]; [now left|right].
    destruct (chat_POST_success req backend H) as (q & st & data & urls & B & OK & _ & R & E).
    exists q, st, data, urls. repeat split; assumption.
  - intros rb q backend st data urls Q B OK N R.
    unfold chat_POST. rewrite Q, B, OK. simpl.
    unfold build_body, get_prop_strict. rewrite N.
    unfold map_references. rewrite R, map_refs_strings. reflexivity.
Qed.

(** C3 (counterexample): when the request body is not JSON the answer carries
    no apology message and no references field: it is the bare error object. *)
Lemma C3_counterexample :
  let r := chat_POST None (backend_const data_no_evaluation) in
  status r = 500%Z /\
  get_prop (body r) "answer" = JUndef /\
  get_prop (body r) "references" = JUndef /\
  get_prop (body r) "scores" = JUndef.
Proof. cbv zeta. repeat split. Qed.

(** C3 (amended): when any stage fails (the request body is not JSON or is
    [null], the backend fetch throws, the backend status is not ok, or its
    body is not JSON) the endpoint answers exactly status 500 with the body
    [{error: 'Failed to process request'}] and no other field. *)
Theorem C3_failure_error_payload :
  status error_response = 500%Z /\
  body error_response = JObj [("error", JStr "Failed to process request")] /\
  (forall backend, chat_POST None backend = error_response) /\
  (forall rb backend, is_nullish rb = true -> chat_POST (Some rb) backend = error_response) /\
  (forall rb q backend,
     get_prop_strict rb "question" = Some q -> backend q = BThrows ->
     chat_POST (Some rb) backend = error_response) /\
  (forall rb q backend st js,
     get_prop_strict rb "question" = Some q -> backend q = BResp st js ->
     resp_ok st = false -> chat_POST (Some rb) backend = error_response) /\
  (forall rb q backend st,
     get_prop_strict rb "question" = Some q -> backend q = BResp st None ->
     chat_POST (Some rb) backend = error_response).
Proof.
  split; [reflexivity|]. split; [reflexivity|].
  split; [reflexivity|]. split.
  { intros rb backend N. unfold chat_POST, get_prop_strict. now rewrite N. }
  split.
  { intros rb q backend Q B. unfold chat_POST. now rewrite Q, B. }
  split.
  { intros rb q backend st js Q B OK. unfold chat_POST. now rewrite Q, B, OK. }
  intros rb q backend st Q B. unfold chat_POST. rewrite Q, B.
  now destruct (resp_ok st).
Qed.

(** C4: every reference of a successful answer has a [page_url] that is one of
    the URL strings in the [references] of the backend's reply to that
    request's question. *)
Theorem C4_references_from_backend rb q backend st data :
  get_prop_strict rb "question" = Some q ->
  backend q = BResp st (Some data) ->
  status (chat_POST (Some rb) backend) = 200%Z ->
  exists urls outs,
    get_prop data "references" = JArr (map JStr urls) /\
    get_prop (body (chat_POST (Some rb) backend)) "references" = JArr outs /\
    forall x, In x outs -> exists u, In u urls /\ get_prop x "page_url" = JStr u.
Proof.
  intros Q B H.
  destruct (chat_POST_reply_success rb q backend st data Q B H) as (urls & _ & _ & R & E).
  exists urls, (map transform_ref urls).
  split; [exact R|]. split; [now rewrite E|].
  intros x Hx. apply in_map_iff in Hx. destruct Hx as (u & <- & Hu).
  exists u. split; [exact Hu|reflexivity].
Qed.

Lemma C4_witness :
  get_prop_strict (JObj [("question", JStr "What is your return policy?")]) "question"
    = Some (JStr "What is your return policy?") /\
  backend_const (data_with_scores 9) (JStr "What is your return policy?") = BResp 200 (Some (data_with_scores 9)) /\
  status (chat_POST sample_request (backend_const (data_with_scores 9))) = 200%Z /\
  exists urls outs,
    get_prop (data_with_scores 9) "references" = JArr (map JStr urls) /\
    get_prop (body (chat_POST sample_request (backend_const (data_with_scores 9))))
      "references" = JArr outs /\
    forall x, In x outs -> exists u, In u urls /\ get_prop x "page_url" = JStr u.
Proof.
  split; [reflexivity|]. split; [reflexivity|]. split; [reflexivity|].
  apply (C4_references_from_backend (JObj [("question", JStr "What is your return policy?")])
           (JStr "What is your return policy?") (backend_const (data_with_scores 9)) 200 (data_with_scores 9)); reflexivity.
Defined.

(** C5 (counterexample): a backend [factual_accuracy] of 15, outside 0..10,
    reaches the client unchanged. *)
Lemma C5_counterexample :
  let sc := get_prop (body (chat_POST sample_request (backend_const (data_with_scores 15))))
              "scores" in
  get_prop sc "factual_accuracy" = JNum (NFin 15) /\ ~ Qle 15 10.
Proof.
  cbv zeta. split; [reflexivity|]. unfold Qle; simpl. lia.
Qed.

(** C5 (amended): the endpoint does not clamp scores: a successful answer
    carries the [evaluation.llm_evaluation.scores] of the backend's reply to
    that request's question unchanged when it is truthy, and otherwise the
    default object whose four fields are 0. *)
Theorem C5_scores_passed_through rb q backend st data :
  get_prop_strict rb "question" = Some q ->
  backend q = BResp st (Some data) ->
  status (chat_POST (Some rb) backend) = 200%Z ->
  get_prop (body (chat_POST (Some rb) backend)) "scores" =
    (if truthy (llm_scores data) then llm_scores data else default_scores).
Proof.
  intros Q B H.
  destruct (chat_POST_reply_success rb q backend st data Q B H) as (urls & _ & _ & _ & E).
  now rewrite E.
Qed.

Lemma C5_witness :
  get_prop_strict (JObj [("question", JStr "What is your return policy?")]) "question"
    = Some (JStr "What is your return policy?") /\
  backend_const (data_with_scores 15) (JStr "What is your return policy?") = BResp 200 (Some (data_with_scores 15)) /\
  status (chat_POST sample_request (backend_const (data_with_scores 15))) = 200%Z /\
  get_prop (body (chat_POST sample_request (backend_const (data_with_scores 15)))) "scores" =
    (if truthy (llm_scores (data_with_scores 15)) then llm_scores (data_with_scores 15) else default_scores).
Proof.
  split; [reflexivity|]. split; [reflexivity|]. split; [reflexivity|].
  apply (C5_scores_passed_through (JObj [("question", JStr "What is your return policy?")])
           (JStr "What is your return policy?") (backend_const (data_with_scores 15)) 200 (data_with_scores 15)); reflexivity.
Defined.

(** C6 (counterexample): a backend reference list with the same URL twice
    yields two references in the answer. *)
Lemma C6_counterexample :
  get_prop (body (chat_POST sample_request (backend_const (data_with_scores 9)))) "references"
  = JArr [transform_ref returns_url; transform_ref returns_url].
Proof. reflexivity. Qed.

(** C6 (amended): the references of a successful answer are those of the
    backend's reply to that request's question, one for one, in the same
    order, duplicates kept: the [i]-th reference is built from the [i]-th
    backend URL. *)
Theorem C6_references_one_for_one rb q backend st data :
  get_prop_strict rb "question" = Some q ->
  backend q = BResp st (Some data) ->
  status (chat_POST (Some rb) backend) = 200%Z ->
  exists urls,
    get_prop data "references" = JArr (map JStr urls) /\
    get_prop (body (chat_POST (Some rb) backend)) "references" = JArr (map transform_ref urls).
Proof.
  intros Q B H.
  destruct (chat_POST_reply_success rb q backend st data Q B H) as (urls & _ & _ & R & E).
  exists urls. split; [exact R|]. now rewrite E.
Qed.

Lemma C6_witness :
  get_prop_strict (JObj [("question", JStr "What is your return policy?")]) "question"
    = Some (JStr "What is your return policy?") /\
  backend_const (data_with_scores 9) (JStr "What is your return policy?") = BResp 200 (Some (data_with_scores 9)) /\
  status (chat_POST sample_request (backend_const (data_with_scores 9))) = 200%Z /\
  exists urls,
    get_prop (data_with_scores 9) "references" = JArr (map JStr urls) /\
    get_prop (body (chat_POST sample_request (backend_const (data_with_scores 9))))
      "references" = JArr (map transform_ref urls).
Proof.
  split; [reflexivity|]. split; [reflexivity|]. split; [reflexivity|].
  apply (C6_references_one_for_one (JObj [("question", JStr "What is your return policy?")])
           (JStr "What is your return policy?") (backend_const (data_with_scores 9)) 200 (data_with_scores 9)); reflexivity.
Defined.

(** ** [split] and [pop] *)

Lemma js_split_no_sep c s : has_char c s = false -> js_split c s = [s].
Proof.
  induction s as [|a rest IH]; simpl; [reflexivity|].
  intros H. apply orb_false_iff in H as [Ha Hr].
  rewrite Ha, (IH Hr). reflexivity.
Qed.

Lemma js_split_app_sep c p s :
  exists x l, js_split c (p ++ String c s) = x :: l ++ js_split c s.
Proof.
  induction p as [|a p IH]; simpl.
  - rewrite Ascii.eqb_refl. exists EmptyString, []. reflexivity.
  - destruct IH as (x & l & E). rewrite E.
    destruct (Ascii.eqb a c).
    + exists EmptyString, (x :: l). reflexivity.
    + exists (String a x), l. reflexivity.
Qed.

Lemma js_pop_snoc l x s : js_pop (x :: l ++ [s]) = Some s.
Proof.
  revert x; induction l as [|y l IH]; intros x; [reflexivity|].
  simpl app. change (js_pop (x :: y :: l ++ [s])) with (js_pop (y :: l ++ [s])).
  apply IH.
Qed.

(** C8: [page_url] is the URL unchanged; [page_title] is the part after the
    last '/' when that part is not empty, and the whole URL otherwise (a URL
    ending in '/', or one without '/' at all, whose "last part" is itself). *)
Theorem C8_page_title_last_segment :
  (forall p s,
     has_char slash s = false ->
     page_title (p ++ String slash s) =
       (if String.eqb s "" then p ++ String slash s else s)) /\
  (forall url, has_char slash url = false -> page_title url = url) /\
  (forall url,
     get_prop (transform_ref url) "page_url" = JStr url /\
     get_prop (transform_ref url) "page_title" = JStr (page_title url)).
Proof.
  split; [|split].
  - intros p s H. unfold page_title.
    destruct (js_split_app_sep slash p s) as (x & l & E).
    rewrite E, (js_split_no_sep _ _ H), js_pop_snoc. reflexivity.
  - intros url H. unfold page_title.
    rewrite (js_split_no_sep _ _ H). simpl.
    now destruct (String.eqb url "").
  - intros url. split; reflexivity.
Qed.

(** ** Claims on the chat page *)

Definition sample_state (q : string) : chat_state :=
  mk_chat_state q false [] [] [].

(** The Number formatting used in the samples; no sample answer is a number. *)
Definition sample_num_to_string (_ : Q) : string := "0".

Example submit_success :
  messages (handleSubmit sample_num_to_string (sample_state "What is your Return policy?")
              (fun _ => BResp 200 (Some (JObj [("answer", JStr "30 days.");
                                              ("references", JArr []);
                                              ("scores", default_scores)]))) 1000 1350)
  = [mk_message 1000 MUser "What is your Return policy?" None None;
     mk_message 1351 MAgent ("what is your. Here's what I found:" ++ nl ++ nl ++ "30 days.")
       (Some (JArr [])) (Some default_scores)].
Proof. reflexivity. Qed.

Lemma trim_start_all_ws s : all_ws s = true -> trim_start s = "".
Proof.
  induction s as [|a rest IH]; simpl; [reflexivity|].
  intros H. apply andb_true_iff in H as [Ha Hr]. rewrite Ha. exact (IH Hr).
Qed.

Lemma js_trim_all_ws s : all_ws s = true -> js_trim s = "".
Proof. intros H. unfold js_trim. rewrite (trim_start_all_ws s H). reflexivity. Qed.

(** C7: when the call to [/api/chat] throws or answers a status that is not
    ok, [handleSubmit] appends the user message and then an agent message
    whose text is the fixed apology, with neither [references] nor [scores];
    neither the scores section nor the references section is rendered for it. *)
Theorem C7_failure_apology num_to_string s api now later :
  js_trim (question s) <> "" ->
  (api (JObj [("question", JStr (question s))]) = BThrows \/
   exists st js, api (JObj [("question", JStr (question s))]) = BResp st js /\
                 resp_ok st = false) ->
  let m := mk_message (later + 1) MAgent apology None None in
  messages (handleSubmit num_to_string s api now later)
    = (messages s ++ [mk_message now MUser (question s) None None; m])%list /\
  text m = apology /\ references m = None /\ scores m = None /\
  shows_scores m = false /\ shows_references m = false.
Proof.
  intros T F. cbv zeta.
  assert (A : agent_message num_to_string (question s) later
                (api (JObj [("question", JStr (question s))])) = None).
  { destruct F as [E | (st & js & E & OK)]; rewrite E; [reflexivity|].
    simpl. now rewrite OK. }
  unfold handleSubmit.
  destruct (String.eqb (js_trim (question s)) "") eqn:Q.
  - apply String.eqb_eq in Q. contradiction.
  - rewrite A. simpl. rewrite <- app_assoc. repeat split.
Qed.

Lemma C7_witness :
  js_trim (question (sample_state "hello")) <> "" /\
  (let m := mk_message (1350 + 1) MAgent apology None None in
   messages (handleSubmit sample_num_to_string (sample_state "hello") (fun _ => BThrows) 1000 1350)
     = (messages (sample_state "hello")
        ++ [mk_message 1000 MUser (question (sample_state "hello")) None None; m])%list /\
   text m = apology /\ references m = None /\ scores m = None /\
   shows_scores m = false /\ shows_references m = false).
Proof.
  split; [discriminate|].
  apply (C7_failure_apology sample_num_to_string (sample_state "hello") (fun _ => BThrows)
           1000 1350).
  - discriminate.
  - left. reflexivity.
Defined.

(** C9: submitting a question that is empty or only white space leaves the
    whole state unchanged: no request is sent, no message is appended. *)
Theorem C9_blank_question_noop num_to_string s api now later :
  all_ws (question s) = true ->
  handleSubmit num_to_string s api now later = s.
Proof.
  intros H. unfold handleSubmit. rewrite (js_trim_all_ws _ H). reflexivity.
Qed.

Lemma C9_witness :
  all_ws (question (sample_state (String (ascii_of_nat 32) (String (ascii_of_nat 9) EmptyString))))
    = true /\
  handleSubmit sample_num_to_string
    (sample_state (String (ascii_of_nat 32) (String (ascii_of_nat 9) EmptyString)))
    (fun _ => BThrows) 1000 1350
  = sample_state (String (ascii_of_nat 32) (String (ascii_of_nat 9) EmptyString)).
Proof.
  split; [reflexivity|].
  apply C9_blank_question_noop. reflexivity.
Defined.

Lemma Qle_bool_false x y : Qle_bool x y = false -> y < x.
Proof.
  intros H. apply Qnot_le_lt. intros L. apply Qle_bool_iff in L. congruence.
Qed.

(** C10: a finite score is classified green exactly when it is above 8, red
    exactly when it is below 5, and yellow otherwise, so 5 and 8 are yellow;
    +Infinity is green, -Infinity red and NaN yellow. *)
Theorem C10_confidence_color :
  (forall q,
     (getConfidenceColor (NFin q) = green_class <-> 8 < q) /\
     (getConfidenceColor (NFin q) = red_class <-> q < 5) /\
     (getConfidenceColor (NFin q) = yellow_class <-> 5 <= q /\ q <= 8)) /\
  getConfidenceColor (NFin 5) = yellow_class /\
  getConfidenceColor (NFin 8) = yellow_class /\
  getConfidenceColor NPosInf = green_class /\
  getConfidenceColor NNegInf = red_class /\
  getConfidenceColor NNaN = yellow_class.
Proof.
  split; [|repeat split].
  intros q. unfold getConfidenceColor, js_gt, js_lt, green_class, red_class, yellow_class.
  destruct (Qle_bool q 8) eqn:H8; [apply Qle_bool_iff in H8 | apply Qle_bool_false in H8];
  destruct (Qle_bool 5 q) eqn:H5; try apply Qle_bool_iff in H5; try apply Qle_bool_false in H5;
  simpl; repeat split; intros; try discriminate; try reflexivity; try lra;
  exfalso; lra.
Qed.

(** * Further properties of the code *)

(** ** [split] and [join] *)

Lemma str_app_assoc (a b c : string) : (a ++ b) ++ c = a ++ (b ++ c).
Proof. induction a as [|x a IH]; simpl; [reflexivity|now rewrite IH]. Qed.

Lemma str_app_nil_r (a : string) : a ++ "" = a.
Proof. induction a as [|x a IH]; simpl; [reflexivity|now rewrite IH]. Qed.

Lemma js_split_cons c s : exists p ps, js_split c s = p :: ps.
Proof.
  induction s as [|a rest IH]; simpl; [now exists "", []|].
  destruct IH as (p & ps & E). rewrite E.
  destruct (Ascii.eqb a c); eauto.
Qed.

Lemma concat_cons_string sep a p ps :
  String.concat sep (String a p :: ps) = String a (String.concat sep (p :: ps)).
Proof. destruct ps; reflexivity. Qed.

Lemma concat_cons_cons sep x y l :
  String.concat sep (x :: y :: l) = x ++ sep ++ String.concat sep (y :: l).
Proof. reflexivity. Qed.

(** Joining the pieces of [s.split(c)] with [c] gives [s] back. *)
Theorem X_split_join c s : String.concat (String c "") (js_split c s) = s.
Proof.
  induction s as [|a rest IH]; simpl; [reflexivity|].
  destruct (js_split_cons c rest) as (p & ps & E).
  destruct (Ascii.eqb a c) eqn:A.
  - apply Ascii.eqb_eq in A as ->. rewrite E in *.
    rewrite concat_cons_cons, IH. reflexivity.
  - rewrite E in *. rewrite concat_cons_string, IH. reflexivity.
Qed.

Fixpoint count_char (c : ascii) (s : string) : nat :=
  match s with
  | EmptyString => 0
  | String a rest => (if Ascii.eqb a c then 1 else 0) + count_char c rest
  end.

(** [s.split(c)] has one piece more than [s] has occurrences of [c], and
    no piece contains [c]. *)
Theorem X_split_pieces c s :
  length (js_split c s) = S (count_char c s) /\
  Forall (fun p => has_char c p = false) (js_split c s).
Proof.
  induction s as [|a rest [IHl IHf]]; simpl; [split; [reflexivity|now constructor]|].
  destruct (js_split_cons c rest) as (p & ps & E). rewrite E in *.
  destruct (Ascii.eqb a c) eqn:A; simpl in *.
  - split; [lia|]. constructor; [reflexivity|exact IHf].
  - split; [lia|]. inversion IHf; subst.
    constructor; [simpl; now rewrite A|assumption].
Qed.

Lemma js_split_app_piece c x t :
  has_char c x = false -> js_split c (x ++ String c t) = x :: js_split c t.
Proof.
  induction x as [|a x IH]; simpl; intros H.
  - now rewrite Ascii.eqb_refl.
  - apply orb_false_iff in H as [Ha Hx]. rewrite (IH Hx), Ha. reflexivity.
Qed.

(** Splitting on [c] the join with [c] of a non-empty list of pieces
    without [c] gives the pieces back. *)
Theorem X_join_split c l :
  l <> [] -> Forall (fun p => has_char c p = false) l ->
  js_split c (String.concat (String c "") l) = l.
Proof.
  induction l as [|x l IH]; intros Hne Hf; [contradiction|].
  inversion Hf as [|? ? Hx Hl]; subst.
  destruct l as [|y l].
  - simpl. now apply js_split_no_sep.
  - rewrite concat_cons_cons.
    change (String c "" ++ String.concat (String c "") (y :: l))
      with (String c (String.concat (String c "") (y :: l))).
    rewrite js_split_app_piece by exact Hx.
    rewrite IH; [reflexivity|discriminate|exact Hl].
Qed.

Lemma X_join_split_witness :
  ["a"; "b"] <> [] /\ Forall (fun p => has_char "/"%char p = false) ["a"; "b"] /\
  js_split "/"%char (String.concat "/" ["a"; "b"]) = ["a"; "b"].
Proof.
  split; [discriminate|]. split; [repeat constructor|].
  apply (X_join_split "/"%char ["a"; "b"]); [discriminate|repeat constructor].
Defined.

Lemma concat_firstn_prefix sep k l :
  exists r, String.concat sep l = String.concat sep (firstn (S k) l) ++ r.
Proof.
  revert k; induction l as [|x l IH]; intros k; [now exists ""|].
  destruct l as [|y l].
  - exists "". destruct k; simpl; now rewrite str_app_nil_r.
  - destruct k as [|k].
    + exists (sep ++ String.concat sep (y :: l)). reflexivity.
    + destruct (IH k) as (r & E).
      exists r. rewrite concat_cons_cons, E.
      change (firstn (S (S k)) (x :: y :: l)) with (x :: firstn (S k) (y :: l)).
      simpl (firstn (S k) (y :: l)).
      rewrite concat_cons_cons, !str_app_assoc. reflexivity.
Qed.

(** X1: the topic echoed in front of an answer is a prefix of the lower-cased
    question, and it is made of the first (at most) three space-separated
    words of it. *)
Theorem X_questionTopic_prefix q :
  (exists r, to_lower q = questionTopic q ++ r) /\
  js_split space (questionTopic q) = firstn 3 (js_split space (to_lower q)).
Proof.
  unfold questionTopic. split.
  - destruct (concat_firstn_prefix " " 2 (js_split space (to_lower q))) as (r & E).
    exists r. rewrite <- E. symmetry. apply (X_split_join space).
  - apply (X_join_split space).
    + destruct (js_split_cons space (to_lower q)) as (p & ps & ->). discriminate.
    + destruct (X_split_pieces space (to_lower q)) as [_ F].
      rewrite <- (firstn_skipn 3 (js_split space (to_lower q))) in F.
      apply Forall_app in F. exact (proj1 F).
Qed.

(** ** Reference titles *)

Lemma js_pop_some l t : js_pop l = Some t -> exists l', l = (l' ++ [t])%list.
Proof.
  induction l as [|x l IH]; simpl; [discriminate|].
  destruct l as [|y l].
  - intros H; injection H as <-. exists []. reflexivity.
  - intros H. destruct (IH H) as (l' & E). exists (x :: l'). rewrite E. reflexivity.
Qed.

Lemma concat_snoc sep l t :
  l <> [] -> String.concat sep (l ++ [t])%list = String.concat sep l ++ sep ++ t.
Proof.
  induction l as [|x l IH]; intros Hne; [contradiction|].
  destruct l as [|y l]; [reflexivity|].
  change ((x :: y :: l) ++ [t])%list with (x :: y :: (l ++ [t]))%list.
  rewrite !concat_cons_cons.
  change (y :: (l ++ [t]))%list with ((y :: l) ++ [t])%list.
  rewrite IH by discriminate. rewrite !str_app_assoc. reflexivity.
Qed.

(** X2: the title of a reference is empty only for an empty URL, and a title
    that differs from its URL is the non-empty, '/'-free part after the URL's
    last '/'. *)
Theorem X_page_title_shape url :
  (page_title url = "" -> url = "") /\
  (page_title url <> url ->
   page_title url <> "" /\ has_char slash (page_title url) = false /\
   exists p, url = p ++ String slash (page_title url)).
Proof.
  unfold page_title.
  destruct (js_pop (js_split slash url)) as [t|] eqn:P; [|split; [auto|intros H; contradiction]].
  destruct (String.eqb t "") eqn:T; [split; [auto|intros H; contradiction]|].
  apply String.eqb_neq in T.
  split; [intros H; contradiction|intros Hne].
  destruct (js_pop_some _ _ P) as (l' & E).
  destruct (X_split_pieces slash url) as [_ F].
  rewrite Forall_forall in F.
  split; [exact T|]. split.
  { apply F. rewrite E. apply in_or_app. right. now left. }
  pose proof (X_split_join slash url) as J. rewrite E in J.
  destruct l' as [|x l'].
  - simpl in J. congruence.
  - rewrite concat_snoc in J by discriminate.
    exists (String.concat (String slash "") (x :: l')). rewrite <- J. reflexivity.
Qed.

(** ** The loading indicator *)

Section Loading.
Local Open Scope nat_scope.

Lemma loading_ticks_add a b i l :
  loading_ticks (a + b) i l =
  let (i', l') := loading_ticks a i l in loading_ticks b i' l'.
Proof.
  revert i l; induction a as [|a IH]; intros i l; [reflexivity|].
  simpl. destruct (loading_tick i l) as [i1 l1]. apply IH.
Qed.

Lemma loading_four_ticks i st :
  loading_ticks 4 i (mk_loading st 0) =
  ((i + 1) mod 3, mk_loading (Some (nth ((i + 1) mod 3) stages Understanding)) 0).
Proof. reflexivity. Qed.

Lemma loading_few_ticks r i st :
  0 < r < 4 ->
  loading_ticks r i (mk_loading st 0) = (i, mk_loading (Some (nth i stages Understanding)) r).
Proof.
  intros H. destruct r as [|[|[|[|r]]]]; try lia; reflexivity.
Qed.

Lemma loading_rounds k :
  loading_ticks (4 * k) 0 loading_idle =
  (k mod 3, match k with
            | O => loading_idle
            | S _ => mk_loading (Some (nth (k mod 3) stages Understanding)) 0
            end).
Proof.
  induction k as [|k IH]; [reflexivity|].
  replace (4 * S k) with (4 * k + 4) by lia.
  rewrite loading_ticks_add, IH.
  assert (M : (k mod 3 + 1) mod 3 = S k mod 3).
  { rewrite Nat.Div0.add_mod_idemp_l. f_equal. lia. }
  destruct k; [unfold loading_idle|]; rewrite loading_four_ticks, M; reflexivity.
Qed.

(** X3: while a request is loading, after [4 * k + r] runs of the interval
    callback ([r < 4], at least one run) the indicator shows [r] dots and the
    stage of index [k mod 3] in understanding, searching, generating: the dots
    count 1, 2, 3, 0 and the stage moves on each time they wrap. The text is
    that stage's message followed by the dots, and it is empty when idle. *)
Theorem X_loading_cycle k r :
  r < 4 -> 0 < 4 * k + r ->
  loading_ticks (4 * k + r) 0 loading_idle =
    (k mod 3, mk_loading (Some (nth (k mod 3) stages Understanding)) r) /\
  getLoadingMessage (snd (loading_ticks (4 * k + r) 0 loading_idle)) =
    stage_message (nth (k mod 3) stages Understanding) ++ repeat_dot r /\
  getLoadingMessage loading_idle = "".
Proof.
  intros Hr Hpos.
  assert (E : loading_ticks (4 * k + r) 0 loading_idle =
              (k mod 3, mk_loading (Some (nth (k mod 3) stages Understanding)) r)).
  { rewrite loading_ticks_add, loading_rounds.
    destruct r as [|r].
    - destruct k as [|k]; [lia|]. reflexivity.
    - destruct k as [|k]; apply loading_few_ticks; lia. }
  split; [exact E|]. split; [|reflexivity].
  rewrite E. reflexivity.
Qed.

Lemma X_loading_cycle_witness :
  2 < 4 /\ 0 < 4 * 4 + 2 /\
  loading_ticks (4 * 4 + 2) 0 loading_idle =
    (4 mod 3, mk_loading (Some (nth (4 mod 3) stages Understanding)) 2) /\
  getLoadingMessage (snd (loading_ticks (4 * 4 + 2) 0 loading_idle)) =
    stage_message (nth (4 mod 3) stages Understanding) ++ repeat_dot 2 /\
  getLoadingMessage loading_idle = "".
Proof.
  split; [lia|]. split; [lia|].
  apply (X_loading_cycle 4 2); lia.
Defined.

End Loading.

(** ** The references toggle and the score labels *)

Lemma show_lookup_snoc sr k v j :
  show_lookup (sr ++ [(k, v)])%list j = if Z.eqb j k then Some v else show_lookup sr j.
Proof.
  induction sr as [|[k' v'] sr IH]; simpl.
  - now destruct (Z.eqb j k).
  - rewrite IH. destruct (Z.eqb j k); [reflexivity|].
    destruct (show_lookup sr j); reflexivity.
Qed.

(** X4: clicking Show/Hide References flips the visibility of that message's
    references only, and two clicks restore it. *)
Theorem X_toggle_references sr k :
  references_shown (toggleReferences sr k) k = negb (references_shown sr k) /\
  (forall j, j <> k -> references_shown (toggleReferences sr k) j = references_shown sr j) /\
  references_shown (toggleReferences (toggleReferences sr k) k) k = references_shown sr k.
Proof.
  assert (T : forall sr', references_shown (toggleReferences sr' k) k
                          = negb (references_shown sr' k)).
  { intros sr'. unfold toggleReferences, references_shown at 1.
    rewrite show_lookup_snoc, Z.eqb_refl. reflexivity. }
  split; [apply T|]. split.
  - intros j Hj. unfold toggleReferences, references_shown at 1.
    rewrite show_lookup_snoc. apply Z.eqb_neq in Hj. now rewrite Hj.
  - rewrite !T. apply negb_involutive.
Qed.

(** X5: the label of a score has the length of its key and no underscore
    left. *)
Theorem X_score_label key :
  String.length (score_label key) = String.length key /\
  has_char "_"%char (score_label key) = false.
Proof.
  induction key as [|a key [IHl IHh]]; [split; reflexivity|].
  simpl. split; [now rewrite IHl|].
  rewrite IHh, orb_false_r.
  destruct (Ascii.eqb a "_"%char) eqn:A; [reflexivity|exact A].
Qed.

(** ** Submitting a question *)

Lemma agent_message_some num_to_string q later res m :
  agent_message num_to_string q later res = Some m -> id m = (later + 1)%Z /\ mtype m = MAgent.
Proof.
  unfold agent_message. destruct res as [|st [data|]]; try discriminate.
  - destruct (negb (resp_ok st)); [discriminate|].
    destruct (get_prop_strict data "answer") as [answer|]; [|discriminate].
    destruct (js_to_string num_to_string answer); [|discriminate].
    intros H; injection H as <-. split; reflexivity.
  - now destruct (negb (resp_ok st)).
Qed.

(** X6: submitting a question that is not blank clears the input, ends the
    loading state, sends exactly one request whose body carries the question
    as typed (untrimmed), and appends exactly two messages: the user's
    question with the id of the clock reading taken before the request, then
    an agent message whose id is one more than the clock reading taken after
    the response. *)
Theorem X_submit_nonblank num_to_string s api now later :
  js_trim (question s) <> "" ->
  let s' := handleSubmit num_to_string s api now later in
  question s' = "" /\ loading s' = false /\
  sent s' = (sent s ++ [JObj [("question", JStr (question s))]])%list /\
  exists m, messages s' = (messages s ++ [mk_message now MUser (question s) None None; m])%list /\
            mtype m = MAgent /\ id m = (later + 1)%Z.
Proof.
  intros T. cbv zeta. unfold handleSubmit.
  destruct (String.eqb (js_trim (question s)) "") eqn:Q;
    [apply String.eqb_eq in Q; contradiction|].
  destruct (agent_message num_to_string (question s) later
              (api (JObj [("question", JStr (question s))]))) as [m|] eqn:A;
    simpl; (split; [reflexivity|]); (split; [reflexivity|]); (split; [reflexivity|]).
  - destruct (agent_message_some _ _ _ _ _ A) as [I M].
    exists m. split; [now rewrite <- app_assoc|split; assumption].
  - exists (error_message later). split; [now rewrite <- app_assoc|split; reflexivity].
Qed.

Lemma X_submit_nonblank_witness :
  js_trim (question (sample_state "hello")) <> "" /\
  (let s' := handleSubmit sample_num_to_string (sample_state "hello") (fun _ => BThrows)
               1000 1350 in
   question s' = "" /\ loading s' = false /\
   sent s' = (sent (sample_state "hello")
              ++ [JObj [("question", JStr (question (sample_state "hello")))]])%list /\
   exists m, messages s' = (messages (sample_state "hello")
                            ++ [mk_message 1000 MUser (question (sample_state "hello")) None None;
                                m])%list /\
             mtype m = MAgent /\ id m = (1350 + 1)%Z).
Proof.
  split; [discriminate|].
  apply (X_submit_nonblank sample_num_to_string (sample_state "hello") (fun _ => BThrows)
           1000 1350).
  discriminate.
Defined.

(** X7: when [/api/chat] answers an ok status with a JSON value that is not
    [null] and whose [answer] converts to the text [a], the agent message
    carries [data.references] and [data.scores] as received, its text is the
    question topic, ". Here's what I found:", a blank line and [a]; its
    references start hidden. *)
Theorem X_submit_success num_to_string s api now later st data a :
  js_trim (question s) <> "" ->
  api (JObj [("question", JStr (question s))]) = BResp st (Some data) ->
  resp_ok st = true -> is_nullish data = false ->
  js_to_string num_to_string (get_prop data "answer") = Some a ->
  let s' := handleSubmit num_to_string s api now later in
  messages s' =
    (messages s ++
     [mk_message now MUser (question s) None None;
      mk_message (later + 1) MAgent
        (questionTopic (question s) ++ ". Here's what I found:" ++ nl ++ nl ++ a)
        (Some (get_prop data "references")) (Some (get_prop data "scores"))])%list /\
  references_shown (showReferences s') (later + 1) = false.
Proof.
  intros T A OK N S. cbv zeta. unfold handleSubmit.
  destruct (String.eqb (js_trim (question s)) "") eqn:Q;
    [apply String.eqb_eq in Q; contradiction|].
  unfold agent_message. rewrite A, OK. simpl. unfold get_prop_strict. rewrite N, S. simpl.
  split; [now rewrite <- app_assoc|].
  unfold references_shown. rewrite show_lookup_snoc, Z.eqb_refl. reflexivity.
Qed.

Lemma X_submit_success_witness :
  js_trim (question (sample_state "hello")) <> "" /\
  backend_const data_no_evaluation (JObj [("question", JStr (question (sample_state "hello")))])
    = BResp 200 (Some data_no_evaluation) /\
  resp_ok 200 = true /\ is_nullish data_no_evaluation = false /\
  js_to_string sample_num_to_string (get_prop data_no_evaluation "answer")
    = Some "Returns accepted within 30 days." /\
  (let s' := handleSubmit sample_num_to_string (sample_state "hello")
               (backend_const data_no_evaluation) 1000 1350 in
   messages s' =
     (messages (sample_state "hello") ++
      [mk_message 1000 MUser (question (sample_state "hello")) None None;
       mk_message (1350 + 1) MAgent
         (questionTopic (question (sample_state "hello")) ++ ". Here's what I found:" ++ nl ++ nl
          ++ "Returns accepted within 30 days.")
         (Some (get_prop data_no_evaluation "references"))
         (Some (get_prop data_no_evaluation "scores"))])%list /\
   references_shown (showReferences s') (1350 + 1) = false).
Proof.
  split; [discriminate|]. split; [reflexivity|]. split; [reflexivity|].
  split; [reflexivity|]. split; [reflexivity|].
  apply (X_submit_success sample_num_to_string (sample_state "hello")
           (backend_const data_no_evaluation) 1000 1350 200 data_no_evaluation
           "Returns accepted within 30 days.");
    [discriminate|reflexivity|reflexivity|reflexivity|reflexivity].
Defined.

(** X12: when [/api/chat] answers an ok status but [`${data.answer}`] throws
    (an answer object with its own [toString] key), the page appends the user
    message and then the apology, not an answer. *)
Theorem X_submit_answer_unprintable num_to_string s api now later st data :
  js_trim (question s) <> "" ->
  api (JObj [("question", JStr (question s))]) = BResp st (Some data) ->
  resp_ok st = true -> is_nullish data = false ->
  js_to_string num_to_string (get_prop data "answer") = None ->
  messages (handleSubmit num_to_string s api now later) =
    (messages s ++ [mk_message now MUser (question s) None None; error_message later])%list.
Proof.
  intros T A OK N S. unfold handleSubmit.
  destruct (String.eqb (js_trim (question s)) "") eqn:Q;
    [apply String.eqb_eq in Q; contradiction|].
  unfold agent_message. rewrite A, OK. simpl. unfold get_prop_strict. rewrite N, S. simpl.
  now rewrite <- app_assoc.
Qed.

Lemma X_submit_answer_unprintable_witness :
  js_trim (question (sample_state "hello")) <> "" /\
  backend_const data_unprintable_answer
    (JObj [("question", JStr (question (sample_state "hello")))])
    = BResp 200 (Some data_unprintable_answer) /\
  resp_ok 200 = true /\ is_nullish data_unprintable_answer = false /\
  js_to_string sample_num_to_string (get_prop data_unprintable_answer "answer") = None /\
  messages (handleSubmit sample_num_to_string (sample_state "hello")
              (backend_const data_unprintable_answer) 1000 1350) =
    (messages (sample_state "hello")
     ++ [mk_message 1000 MUser (question (sample_state "hello")) None None;
         error_message 1350])%list.
Proof.
  split; [discriminate|]. split; [reflexivity|]. split; [reflexivity|].
  split; [reflexivity|]. split; [reflexivity|].
  apply (X_submit_answer_unprintable sample_num_to_string (sample_state "hello")
           (backend_const data_unprintable_answer) 1000 1350 200 data_unprintable_answer);
    [discriminate|reflexivity|reflexivity|reflexivity|reflexivity].
Defined.

(** ** The page and the route together *)

Lemma chat_POST_ok_reply rb q backend st data urls :
  get_prop_strict rb "question" = Some q ->
  backend q = BResp st (Some data) -> resp_ok st = true ->
  is_nullish data = false ->
  get_prop data "references" = JArr (map JStr urls) ->
  chat_POST (Some rb) backend = mk_response 200 (success_body data urls).
Proof.
  intros Q B OK N R.
  unfold chat_POST. rewrite Q, B, OK. simpl.
  unfold build_body, get_prop_strict. rewrite N.
  unfold map_references. rewrite R, map_refs_strings. reflexivity.
Qed.

Lemma scores_of_truthy data : truthy (scores_of data) = true.
Proof. unfold scores_of, js_or. destruct (truthy (llm_scores data)) eqn:E; [exact E|reflexivity]. Qed.

Lemma scores_of_not_undef data : is_undef (scores_of data) = false.
Proof.
  pose proof (scores_of_truthy data) as T. destruct (scores_of data); try reflexivity.
  discriminate.
Qed.

(** After the round trip through JSON, [l || defaults] is still truthy
    exactly when [l] is not an infinity (which JSON sends as [null]). *)
Lemma json_rt_or_default_truthy l :
  truthy (json_rt (js_or l default_scores)) = true <->
  ~ (l = JNum NPosInf \/ l = JNum NNegInf).
Proof.
  assert (Hd : truthy (json_rt default_scores) = true) by reflexivity.
  unfold js_or. destruct (truthy l) eqn:Tl.
  - destruct l as [| |b|[q| | |]|str|xs|kvs]; simpl in *; try discriminate;
      try rewrite Tl; split; intros H;
      first [ reflexivity | discriminate H | intros [E|E]; discriminate E
            | exfalso; apply H; auto ].
  - rewrite Hd. split; [intros _ [E|E]; subst l; discriminate Tl|reflexivity].
Qed.

Lemma json_rt_transform_refs urls :
  map (fun x => if is_undef x then JNull else json_rt x) (map transform_ref urls)
  = map transform_ref urls.
Proof. induction urls as [|u urls IH]; simpl; [reflexivity|now rewrite IH]. Qed.

Lemma json_rt_success_body data urls :
  get_prop (json_rt (success_body data urls)) "answer" = json_rt (get_prop data "answer") /\
  get_prop (json_rt (success_body data urls)) "references" = JArr (map transform_ref urls) /\
  get_prop (json_rt (success_body data urls)) "scores" = json_rt (scores_of data) /\
  is_nullish (json_rt (success_body data urls)) = false.
Proof.
  unfold success_body. simpl json_rt. rewrite scores_of_not_undef, json_rt_transform_refs.
  destruct (is_undef (get_prop data "answer")) eqn:U.
  - destruct (get_prop data "answer"); try discriminate. repeat split.
  - repeat split.
Qed.

Lemma e2e_success_messages num_to_string s backend now later st data urls a :
  js_trim (question s) <> "" ->
  backend (JStr (question s)) = BResp st (Some data) ->
  resp_ok st = true -> is_nullish data = false ->
  get_prop data "references" = JArr (map JStr urls) ->
  js_to_string num_to_string (json_rt (get_prop data "answer")) = Some a ->
  messages (handleSubmit num_to_string s (page_api backend) now later) =
    (messages s ++ [mk_message now MUser (question s) None None;
                    e2e_agent_message (question s) later a data urls])%list.
Proof.
  intros T B OK N R S. unfold handleSubmit.
  destruct (String.eqb (js_trim (question s)) "") eqn:Q;
    [apply String.eqb_eq in Q; contradiction|].
  unfold page_api.
  rewrite (chat_POST_ok_reply (JObj [("question", JStr (question s))]) (JStr (question s))
             backend st data urls eq_refl B OK N R).
  destruct (json_rt_success_body data urls) as (EA & ER & ES & EN).
  unfold agent_message. simpl status. simpl body.
  change (negb (resp_ok 200)) with false. cbv iota.
  unfold get_prop_strict. rewrite EN, EA, S, ER, ES. simpl.
  now rewrite <- app_assoc.
Qed.

(** X8: whenever the route fails for the page's request (the backend fetch
    throws, answers a status that is not ok, or a body the route cannot
    reshape), the page appends the user message and the apology message. *)
Theorem X_e2e_failure_apology num_to_string s backend now later :
  js_trim (question s) <> "" ->
  chat_POST (Some (JObj [("question", JStr (question s))])) backend = error_response ->
  messages (handleSubmit num_to_string s (page_api backend) now later) =
    (messages s ++ [mk_message now MUser (question s) None None; error_message later])%list.
Proof.
  intros T E. unfold handleSubmit.
  destruct (String.eqb (js_trim (question s)) "") eqn:Q;
    [apply String.eqb_eq in Q; contradiction|].
  unfold page_api. rewrite E. simpl. now rewrite <- app_assoc.
Qed.

Lemma X_e2e_failure_apology_witness :
  js_trim (question (sample_state "hello")) <> "" /\
  chat_POST (Some (JObj [("question", JStr (question (sample_state "hello")))]))
    (fun _ => BResp 404 None) = error_response /\
  messages (handleSubmit sample_num_to_string (sample_state "hello")
              (page_api (fun _ => BResp 404 None)) 1000 1350) =
    (messages (sample_state "hello")
     ++ [mk_message 1000 MUser (question (sample_state "hello")) None None;
         error_message 1350])%list.
Proof.
  split; [discriminate|]. split; [reflexivity|].
  apply (X_e2e_failure_apology sample_num_to_string (sample_state "hello")
           (fun _ => BResp 404 None) 1000 1350); [discriminate|reflexivity].
Defined.

(** X9: when the backend answers the question with an ok status and an
    object whose [references] is an array of URL strings, and whose answer
    (after the trip through JSON) converts to the text [a], the page appends
    the user message and an agent message whose references are the
    [{page_url, page_title}] objects of those URLs in order; its scores
    section is rendered exactly when the backend's scores value is not an
    infinite number (which JSON sends on as [null]), and its references
    section exactly when there is at least one URL. *)
Theorem X_e2e_success num_to_string s backend now later st data urls a :
  js_trim (question s) <> "" ->
  backend (JStr (question s)) = BResp st (Some data) ->
  resp_ok st = true -> is_nullish data = false ->
  get_prop data "references" = JArr (map JStr urls) ->
  js_to_string num_to_string (json_rt (get_prop data "answer")) = Some a ->
  let m := e2e_agent_message (question s) later a data urls in
  messages (handleSubmit num_to_string s (page_api backend) now later) =
    (messages s ++ [mk_message now MUser (question s) None None; m])%list /\
  references m = Some (JArr (map transform_ref urls)) /\
  (shows_scores m = true <->
   ~ (llm_scores data = JNum NPosInf \/ llm_scores data = JNum NNegInf)) /\
  (shows_references m = true <-> urls <> []).
Proof.
  intros T B OK N R S. cbv zeta.
  split; [exact (e2e_success_messages _ _ _ _ _ _ _ _ _ T B OK N R S)|].
  split; [reflexivity|]. split.
  - unfold shows_scores. simpl. unfold scores_of. apply json_rt_or_default_truthy.
  - unfold shows_references. simpl. rewrite length_map.
    destruct urls; simpl; split; intros H; try reflexivity; try discriminate; contradiction.
Qed.

Lemma X_e2e_success_witness :
  js_trim (question (sample_state "hello")) <> "" /\
  backend_const data_no_evaluation (JStr (question (sample_state "hello")))
    = BResp 200 (Some data_no_evaluation) /\
  resp_ok 200 = true /\ is_nullish data_no_evaluation = false /\
  get_prop data_no_evaluation "references" = JArr (map JStr [returns_url]) /\
  js_to_string sample_num_to_string (json_rt (get_prop data_no_evaluation "answer"))
    = Some "Returns accepted within 30 days." /\
  (let m := e2e_agent_message (question (sample_state "hello")) 1350
              "Returns accepted within 30 days." data_no_evaluation [returns_url] in
   messages (handleSubmit sample_num_to_string (sample_state "hello")
               (page_api (backend_const data_no_evaluation)) 1000 1350) =
     (messages (sample_state "hello")
      ++ [mk_message 1000 MUser (question (sample_state "hello")) None None; m])%list /\
   references m = Some (JArr (map transform_ref [returns_url])) /\
   (shows_scores m = true <->
    ~ (llm_scores data_no_evaluation = JNum NPosInf \/
       llm_scores data_no_evaluation = JNum NNegInf)) /\
   (shows_references m = true <-> [returns_url] <> [])).
Proof.
  split; [discriminate|]. do 5 (split; [reflexivity|]).
  apply (X_e2e_success sample_num_to_string (sample_state "hello")
           (backend_const data_no_evaluation) 1000 1350 200 data_no_evaluation [returns_url]
           "Returns accepted within 30 days.");
    [discriminate|reflexivity|reflexivity|reflexivity|reflexivity|reflexivity].
Defined.

(** X10: when the backend's ok reply is an object with an array of URL
    strings as [references] but no [answer], the route still answers with
    status 200 and the page's agent message ends in the text "undefined". *)
Theorem X_e2e_missing_answer num_to_string s backend now later st data urls :
  js_trim (question s) <> "" ->
  backend (JStr (question s)) = BResp st (Some data) ->
  resp_ok st = true -> is_nullish data = false ->
  get_prop data "references" = JArr (map JStr urls) ->
  get_prop data "answer" = JUndef ->
  status (chat_POST (Some (JObj [("question", JStr (question s))])) backend) = 200%Z /\
  exists m,
    messages (handleSubmit num_to_string s (page_api backend) now later) =
      (messages s ++ [mk_message now MUser (question s) None None; m])%list /\
    text m = questionTopic (question s) ++ ". Here's what I found:" ++ nl ++ nl ++ "undefined".
Proof.
  intros T B OK N R A. split.
  - rewrite (chat_POST_ok_reply (JObj [("question", JStr (question s))]) (JStr (question s))
               backend st data urls eq_refl B OK N R). reflexivity.
  - exists (e2e_agent_message (question s) later "undefined" data urls).
    split; [|reflexivity].
    apply (e2e_success_messages _ _ _ _ _ _ _ _ _ T B OK N R).
    rewrite A. reflexivity.
Qed.

Lemma X_e2e_missing_answer_witness :
  js_trim (question (sample_state "hello")) <> "" /\
  backend_const (JObj [("references", JArr [])]) (JStr (question (sample_state "hello")))
    = BResp 200 (Some (JObj [("references", JArr [])])) /\
  resp_ok 200 = true /\ is_nullish (JObj [("references", JArr [])]) = false /\
  get_prop (JObj [("references", JArr [])]) "references" = JArr (map JStr []) /\
  get_prop (JObj [("references", JArr [])]) "answer" = JUndef /\
  status (chat_POST (Some (JObj [("question", JStr (question (sample_state "hello")))]))
            (backend_const (JObj [("references", JArr [])]))) = 200%Z /\
  exists m,
    messages (handleSubmit sample_num_to_string (sample_state "hello")
                (page_api (backend_const (JObj [("references", JArr [])]))) 1000 1350) =
      (messages (sample_state "hello")
       ++ [mk_message 1000 MUser (question (sample_state "hello")) None None; m])%list /\
    text m = questionTopic (question (sample_state "hello")) ++ ". Here's what I found:"
             ++ nl ++ nl ++ "undefined".
Proof.
  split; [discriminate|]. do 5 (split; [reflexivity|]).
  apply (X_e2e_missing_answer sample_num_to_string (sample_state "hello")
           (backend_const (JObj [("references", JArr [])])) 1000 1350 200
           (JObj [("references", JArr [])]) []);
    [discriminate|reflexivity|reflexivity|reflexivity|reflexivity|reflexivity].
Defined.

(** X11: the route answers only status 200 or 500: the backend's own status
    is never passed on to the page. *)
Theorem X_route_status req backend :
  status (chat_POST req backend) = 200%Z \/ status (chat_POST req backend) = 500%Z.
Proof.
  destruct (chat_POST_error_or_success req backend) as [E|E]; [right; now rewrite E|now left].
Qed.
